(** * MessageBubble: the chat message component

    A shallow embedding of
    [frontend/src/components/chat/MessageBubble.tsx]: the JSX expression the
    component returns, as a tree of JavaScript values, the [useState] cell
    [showRawResponse], and the two events an instance can receive (a click
    on the button, a new set of props from the parent). *)

From Stdlib Require Import String List Bool ZArith.
Import ListNotations.
Open Scope string_scope.

#[local] Set Warnings "-register-all".

(** ** JavaScript values in a JSX tree *)

(** The only event handler of the component is the closure
    [() => setShowRawResponse(!showRawResponse)]. It captures the value of
    [showRawResponse] of the render that created it, so it is the call of
    the setter at an already computed boolean. *)
Inductive handler : Type :=
| SetShowRawResponse (b : bool).

(** What a JSX child can be here: [undefined], a boolean, a string, or an
    element with its [className], its [onClick] and its children. *)
Inductive value : Type :=
| VUndefined
| VBool (b : bool)
| VString (s : string)
| VElement (type : string) (className : string)
           (onClick : option handler) (children : list value).

(** JavaScript truthiness: [undefined], [false] and the empty string are
    falsy; every element is an object, hence truthy. *)
Definition truthy (v : value) : bool :=
  match v with
  | VUndefined => false
  | VBool b => b
  | VString s => negb (s =? "")
  | VElement _ _ _ _ => true
  end.

(** A prop that may be missing holds [undefined]. *)
Definition of_opt (o : option string) : value :=
  match o with
  | Some s => VString s
  | None => VUndefined
  end.

(** ** Props *)

Inductive Role : Type := user | assistant.

(** [raw_model_response] is declared [string]; [None] is the [undefined] a
    caller that is not type-checked (or a payload without the field) leaves
    there. [timestamp] is declared optional. *)
Record MessageBubbleProps : Type := {
  role : Role;
  content : string;
  raw_model_response : option string;
  timestamp : option string
}.

(** [role === 'user'] *)
Definition is_user (r : Role) : bool :=
  match r with
  | user => true
  | assistant => false
  end.

(** ** The platform *)

(** A [Date] object is its time value: milliseconds since the epoch, or
    [None] for the time value [NaN] of an invalid date. *)
Definition Date : Type := option Z.

(** The options object [{ hour: ..., minute: ... }]. *)
Record TimeFormatOptions : Type := {
  hour : string;
  minute : string
}.

(** What the component imports or takes from the host: [cn] of
    [@/lib/utils], the [Date] constructor and
    [Date.prototype.toLocaleTimeString]. *)
Class Platform : Type := {
  cn : list string -> string;
  Date_new : value -> Date;
  toLocaleTimeString : Date -> string -> TimeFormatOptions -> string
}.

(** The calls to the date functions of the platform, in program order. *)
Inductive call : Type :=
| CallDate (arg : value)
| CallToLocaleTimeString (this : Date) (locales : string)
                         (options : TimeFormatOptions).

(** ** Evaluation with a trace of platform calls *)

Definition M (A : Type) : Type := (A * list call)%type.

Definition ret {A : Type} (a : A) : M A := (a, []).

Definition bind {A B : Type} (m : M A) (k : A -> M B) : M B :=
  let (a, l1) := m in
  let (b, l2) := k a in
  (b, (l1 ++ l2)%list).

Notation "x <- m ;; k" := (bind m (fun x => k))
  (at level 61, m at next level, right associativity).

Definition result {A : Type} (m : M A) : A := fst m.
Definition trace {A : Type} (m : M A) : list call := snd m.

(** [a && b]: the right operand is evaluated only if the left one is
    truthy; otherwise the value of the left operand is the result. *)
Definition js_and (a b : M value) : M value :=
  x <- a ;;
  if truthy x then b else ret x.

Infix "&&&" := js_and (at level 40, left associativity).

Section Component.

Context {P : Platform}.

(** [new Date(v)] *)
Definition new_Date (v : value) : M Date :=
  (Date_new v, [CallDate v]).

(** [d.toLocaleTimeString(locales, options)] *)
Definition call_toLocaleTimeString (d : Date) (locales : string)
           (options : TimeFormatOptions) : M string :=
  (toLocaleTimeString d locales options,
   [CallToLocaleTimeString d locales options]).

(** The component function, at the current value of the state cell
    [showRawResponse]. *)
Definition MessageBubble (props : MessageBubbleProps)
           (showRawResponse : bool) : M value :=
  let isUser := is_user (role props) in
  let raw_model_response := of_opt (raw_model_response props) in
  let timestamp := of_opt (timestamp props) in
  control <-
    ret (VBool (negb isUser)) &&& ret raw_model_response &&&
    ret (VElement "button" "mt-1 text-xs text-blue-500 hover:underline"
           (Some (SetShowRawResponse (negb showRawResponse)))
           [VString (if showRawResponse
                     then "إخفاء التفاصيل" else "عرض التفاصيل")]) ;;
  panel <-
    ret (VBool (negb isUser)) &&& ret (VBool showRawResponse) &&&
    ret (VElement "div"
           "mt-1 rounded-lg bg-gray-100 p-2 text-xs text-gray-800 whitespace-pre-wrap"
           None [raw_model_response]) ;;
  time <-
    ret timestamp &&&
    (d <- new_Date timestamp ;;
     s <- call_toLocaleTimeString d "ar-SA"
            {| hour := "2-digit"; minute := "2-digit" |} ;;
     ret (VElement "span" "px-1 text-xs text-muted-foreground" None
            [VString s])) ;;
  ret
    (VElement "div"
       (cn ["flex gap-3 animate-slide-up";
            if isUser then "flex-row-reverse" else "flex-row"])
       None
       [ VElement "div"
           (cn ["flex h-8 w-8 shrink-0 items-center justify-center rounded-full";
                if isUser then "bg-user-bubble" else "bg-muted"])
           None
           [ if isUser
             then VElement "User" "h-4 w-4 text-user-bubble-foreground" None []
             else VElement "Bot" "h-4 w-4 text-muted-foreground" None [] ];
         VElement "div"
           (cn ["flex max-w-[80%] flex-col gap-1";
                if isUser then "items-end" else "items-start"])
           None
           [ VElement "div"
               (cn ["rounded-2xl px-4 py-2.5 text-sm leading-relaxed whitespace-pre-wrap";
                    if isUser
                    then "bg-user-bubble text-user-bubble-foreground rounded-tl-sm"
                    else "bg-assistant-bubble text-assistant-bubble-foreground rounded-tr-sm"])
               None
               [VString (content props)];
             control;
             panel;
             time ] ]).

End Component.

(** ** Reading the render tree *)

Definition children_of (v : value) : list value :=
  match v with
  | VElement _ _ _ cs => cs
  | _ => []
  end.

Definition child (n : nat) (v : value) : value :=
  nth n (children_of v) VUndefined.

Definition is_element (v : value) : bool :=
  match v with
  | VElement _ _ _ _ => true
  | _ => false
  end.

Definition has_type (ty : string) (v : value) : bool :=
  match v with
  | VElement ty' _ _ _ => ty' =? ty
  | _ => false
  end.

Definition onClick_of (v : value) : option handler :=
  match v with
  | VElement _ _ h _ => h
  | _ => None
  end.

(** The text of an element whose only child is a string. *)
Definition text_of (v : value) : option string :=
  match children_of v with
  | [VString s] => Some s
  | _ => None
  end.

(** Every element of a tree, parents before children, in document order. *)
Fixpoint elements (v : value) : list value :=
  match v with
  | VElement _ _ _ cs => v :: flat_map elements cs
  | _ => []
  end.

(** The root has two children, the avatar and the message column; the
    column has four: the bubble and the values of the three conditional
    expressions. *)
Definition message_column (t : value) : value := child 1 t.
Definition bubble (t : value) : value := child 0 (message_column t).
Definition control_slot (t : value) : value := child 1 (message_column t).
Definition panel_slot (t : value) : value := child 2 (message_column t).
Definition time_slot (t : value) : value := child 3 (message_column t).

(** The disclosure control is a [button], the time label a [span]; the
    component creates no other element of these types, so each is looked up
    in the whole tree. The panel is a [div] like the bubble, so it is told
    by its place in the column. *)
Definition find_element (ty : string) (t : value) : option value :=
  find (has_type ty) (elements t).

Definition control (t : value) : option value := find_element "button" t.

Definition time_label (t : value) : option value := find_element "span" t.

Definition is_some {A : Type} (o : option A) : bool :=
  match o with
  | Some _ => true
  | None => false
  end.

Definition control_rendered (t : value) : bool := is_some (control t).

Definition time_label_rendered (t : value) : bool := is_some (time_label t).

Definition panel_rendered (t : value) : bool := is_element (panel_slot t).

(** The label of the control, when there is one. *)
Definition control_text (t : value) : option string :=
  match control t with
  | Some b => text_of b
  | None => None
  end.

Definition show_details : string := "عرض التفاصيل".
Definition hide_details : string := "إخفاء التفاصيل".

Definition panel_className : string :=
  "mt-1 rounded-lg bg-gray-100 p-2 text-xs text-gray-800 whitespace-pre-wrap".

Definition time_options : TimeFormatOptions :=
  {| hour := "2-digit"; minute := "2-digit" |}.

(** ** A mounted instance and its events *)

(** The props of the last render and the [useState] cell. *)
Record Instance : Type := {
  props_of : MessageBubbleProps;
  showRawResponse_of : bool
}.

(** [useState(false)] *)
Definition mount (props : MessageBubbleProps) : Instance :=
  {| props_of := props; showRawResponse_of := false |}.

Inductive event : Type :=
| Click
| Rerender (props : MessageBubbleProps).

Definition run_handler (h : handler) (i : Instance) : Instance :=
  match h with
  | SetShowRawResponse b =>
      {| props_of := props_of i; showRawResponse_of := b |}
  end.

Section Events.

Context {P : Platform}.

Definition view (i : Instance) : value :=
  result (MessageBubble (props_of i) (showRawResponse_of i)).

(** A click runs the [onClick] of the button of the current render; there
    is nothing to click when no button is rendered. A render with new
    props keeps the state cell. *)
Definition step (i : Instance) (e : event) : option Instance :=
  match e with
  | Click =>
      match control (view i) with
      | Some button =>
          match onClick_of button with
          | Some h => Some (run_handler h i)
          | None => None
          end
      | None => None
      end
  | Rerender props =>
      Some {| props_of := props;
              showRawResponse_of := showRawResponse_of i |}
  end.

Fixpoint run (i : Instance) (es : list event) : option Instance :=
  match es with
  | [] => Some i
  | e :: es' =>
      match step i e with
      | Some i' => run i' es'
      | None => None
      end
  end.

End Events.

(** A platform to evaluate on: [cn] joins its arguments, one timestamp
    parses, an invalid date prints as the standard says. *)
Definition sample_platform : Platform :=
  {| cn := String.concat " ";
     Date_new := fun v =>
       match v with
       | VString "2024-01-01T13:05:00Z" => Some 1704114300000%Z
       | _ => None
       end;
     toLocaleTimeString := fun d _ _ =>
       match d with
       | Some _ => "01:05 PM"
       | None => "Invalid Date"
       end |}.

(** ** More readings of the tree and of the events *)

Definition type_of (v : value) : option string :=
  match v with
  | VElement ty _ _ _ => Some ty
  | _ => None
  end.

Definition className_of (v : value) : option string :=
  match v with
  | VElement _ c _ _ => Some c
  | _ => None
  end.

(** The first child of the root. *)
Definition avatar (t : value) : value := child 0 t.

(** What the role styles: the classes of the root, the avatar with its
    icon, the classes of the column and those of the bubble. *)
Definition styling (t : value) :
  option string * value * option string * option string :=
  (className_of t, avatar t, className_of (message_column t),
   className_of (bubble t)).

(** The elements that carry an [onClick]. *)
Definition interactive (t : value) : list value :=
  filter (fun v => is_some (onClick_of v)) (elements t).

(** The condition in front of the button:
    [!isUser && raw_model_response]. *)
Definition gate (props : MessageBubbleProps) : bool :=
  negb (is_user (role props)) && truthy (of_opt (raw_model_response props)).

(** The props that a sequence of events brings, in order. *)
Definition rendered_props (es : list event) : list MessageBubbleProps :=
  flat_map (fun e => match e with
                     | Click => []
                     | Rerender props => [props]
                     end) es.

(** While the props stay the same, the state cell is [true] only behind
    an open gate: what makes the button appear. *)
Definition gate_open (i : Instance) : Prop :=
  showRawResponse_of i = true ->
  is_user (role (props_of i)) = false /\
  truthy (of_opt (raw_model_response (props_of i))) = true.

(** Props to evaluate on. *)
Definition hello : MessageBubbleProps :=
  {| role := assistant; content := "Hello";
     raw_model_response := Some "raw-debug-data"; timestamp := None |}.

Definition user_message (raw : option string) : MessageBubbleProps :=
  {| role := user; content := "Hi";
     raw_model_response := raw;
     timestamp := Some "2024-01-01T13:05:00Z" |}.

Definition with_timestamp (ts : option string) : MessageBubbleProps :=
  {| role := assistant; content := "Hello";
     raw_model_response := Some "raw-debug-data"; timestamp := ts |}.

(** * Properties *)

(** ** Truthiness of a string prop *)

Lemma truthy_of_opt (o : option string) :
  truthy (of_opt o) = true <-> exists s, o = Some s /\ s <> "".
Proof.
  destruct o as [s|]; simpl.
  - rewrite negb_true_iff. split.
    + intros E. exists s. split; [reflexivity|].
      intros ->. discriminate E.
    + intros (s' & [= <-] & N). now apply String.eqb_neq.
  - split; [discriminate|]. now intros (s & E & _).
Qed.

Lemma truthy_VString (s : string) : s <> "" -> truthy (VString s) = true.
Proof.
  intros N. simpl. apply negb_true_iff. now apply String.eqb_neq.
Qed.

(** ** Laws of the trace monad *)

Lemma bind_ret_l {A B : Type} (a : A) (k : A -> M B) : bind (ret a) k = k a.
Proof. unfold bind, ret. now destruct (k a). Qed.

Lemma bind_ret_r {A : Type} (m : M A) : bind m ret = m.
Proof. destruct m as [a l]. unfold bind, ret. now rewrite app_nil_r. Qed.

Lemma bind_assoc {A B C : Type} (m : M A) (k : A -> M B) (h : B -> M C) :
  bind (bind m k) h = bind m (fun a => bind (k a) h).
Proof.
  destruct m as [a l]. unfold bind.
  destruct (k a) as [b l']. destruct (h b) as [c l''].
  now rewrite app_assoc.
Qed.

(** With a left operand that calls nothing, [&&] is a conditional. *)
Lemma js_and_ret_l (a : value) (b : M value) :
  ret a &&& b = if truthy a then b else ret a.
Proof. unfold js_and. apply bind_ret_l. Qed.

Section Properties.

Context {P : Platform}.

(** ** The three conditional children, one equation each *)

(** Every case of the role, of the two optional strings (missing, empty,
    not empty) and of the state cell evaluates. *)
Ltac all_cases props v :=
  destruct props as [[|] ? [[|? ?]|] [[|? ?]|]]; destruct v; reflexivity.

Lemma control_slot_MessageBubble props v :
  control_slot (result (MessageBubble props v)) =
  if is_user (role props) then VBool false
  else if truthy (of_opt (raw_model_response props))
       then VElement "button" "mt-1 text-xs text-blue-500 hover:underline"
              (Some (SetShowRawResponse (negb v)))
              [VString (if v then hide_details else show_details)]
       else of_opt (raw_model_response props).
Proof. all_cases props v. Qed.

Lemma panel_slot_MessageBubble props v :
  panel_slot (result (MessageBubble props v)) =
  if is_user (role props) then VBool false
  else if v
       then VElement "div" panel_className None
              [of_opt (raw_model_response props)]
       else VBool false.
Proof. all_cases props v. Qed.

Lemma time_slot_MessageBubble props v :
  time_slot (result (MessageBubble props v)) =
  if truthy (of_opt (timestamp props))
  then VElement "span" "px-1 text-xs text-muted-foreground" None
         [VString (toLocaleTimeString (Date_new (of_opt (timestamp props)))
                     "ar-SA" time_options)]
  else of_opt (timestamp props).
Proof. all_cases props v. Qed.

Lemma trace_MessageBubble props v :
  trace (MessageBubble props v) =
  if truthy (of_opt (timestamp props))
  then [CallDate (of_opt (timestamp props));
        CallToLocaleTimeString (Date_new (of_opt (timestamp props)))
          "ar-SA" time_options]
  else [].
Proof. all_cases props v. Qed.

(** The button and the span found in the tree are the element values of
    the first and of the third conditional child. *)
Lemma control_MessageBubble props v :
  control (result (MessageBubble props v)) =
  if negb (is_user (role props)) && truthy (of_opt (raw_model_response props))
  then Some (control_slot (result (MessageBubble props v)))
  else None.
Proof. all_cases props v. Qed.

Lemma time_label_MessageBubble props v :
  time_label (result (MessageBubble props v)) =
  if truthy (of_opt (timestamp props))
  then Some (time_slot (result (MessageBubble props v)))
  else None.
Proof. all_cases props v. Qed.

Lemma column_children props v :
  length (children_of (message_column (result (MessageBubble props v)))) = 4.
Proof. all_cases props v. Qed.

Lemma control_rendered_MessageBubble props v :
  control_rendered (result (MessageBubble props v)) =
  negb (is_user (role props)) && truthy (of_opt (raw_model_response props)).
Proof.
  unfold control_rendered. rewrite control_MessageBubble.
  now destruct (negb _ && _).
Qed.

Lemma panel_rendered_MessageBubble props v :
  panel_rendered (result (MessageBubble props v)) =
  negb (is_user (role props)) && v.
Proof.
  unfold panel_rendered. rewrite panel_slot_MessageBubble.
  now destruct (is_user _), v.
Qed.

Lemma time_label_rendered_MessageBubble props v :
  time_label_rendered (result (MessageBubble props v)) =
  truthy (of_opt (timestamp props)).
Proof.
  unfold time_label_rendered. rewrite time_label_MessageBubble.
  now destruct (truthy _).
Qed.

Lemma control_text_MessageBubble props v :
  control_text (result (MessageBubble props v)) =
  if control_rendered (result (MessageBubble props v))
  then Some (if v then hide_details else show_details)
  else None.
Proof.
  rewrite control_rendered_MessageBubble. unfold control_text.
  rewrite control_MessageBubble, control_slot_MessageBubble.
  destruct (is_user _); [reflexivity|].
  now destruct (truthy _).
Qed.

Lemma is_user_false r : is_user r = false <-> r = assistant.
Proof. destruct r; simpl; split; congruence. Qed.

(** ** Clicks *)

Lemma step_Click props v :
  step {| props_of := props; showRawResponse_of := v |} Click =
  if control_rendered (result (MessageBubble props v))
  then Some {| props_of := props; showRawResponse_of := negb v |}
  else None.
Proof.
  rewrite control_rendered_MessageBubble. unfold step, view. simpl.
  rewrite control_MessageBubble, control_slot_MessageBubble.
  destruct (is_user _); [reflexivity|].
  now destruct (truthy _).
Qed.

(** A step never changes the props unless it is a render with new ones,
    and a click that happens finds the gate of the button open. *)
Lemma step_Click_inv i i' :
  step i Click = Some i' ->
  props_of i' = props_of i /\
  showRawResponse_of i' = negb (showRawResponse_of i) /\
  is_user (role (props_of i)) = false /\
  truthy (of_opt (raw_model_response (props_of i))) = true.
Proof.
  destruct i as [props v]. rewrite step_Click, control_rendered_MessageBubble.
  simpl. destruct (is_user _); [discriminate|].
  destruct (truthy _); [|discriminate].
  now intros [= <-].
Qed.

Lemma gate_open_clicks (n : nat) : forall i i',
  gate_open i -> run i (repeat Click n) = Some i' ->
  props_of i' = props_of i /\ gate_open i'.
Proof.
  induction n as [|n IH]; intros i i' G; cbn [repeat run].
  - now intros [= <-].
  - destruct (step i Click) as [j|] eqn:E; [|discriminate].
    intros R. apply step_Click_inv in E as (Ep & _ & Eu & Er).
    destruct (IH j i') as (Ep' & G'); [|exact R|].
    + intros _. now rewrite Ep.
    + split; [congruence|exact G'].
Qed.

(** X11. While the props of a mounted instance stay the same, a panel in
    the tree after any number of clicks means an assistant message with a
    raw response that is not empty. *)
Lemma panel_gated_under_fixed_props props n i :
  run (mount props) (repeat Click n) = Some i ->
  panel_rendered (view i) = true ->
  role props = assistant /\
  exists s, raw_model_response props = Some s /\ s <> "".
Proof.
  intros R. apply gate_open_clicks in R as (Ep & G);
    [|intros E; discriminate E].
  unfold view. rewrite panel_rendered_MessageBubble, andb_true_iff.
  intros (_ & Ev). destruct (G Ev) as (Eu & Er). rewrite Ep in Eu, Er.
  split; [now apply is_user_false | now apply truthy_of_opt].
Qed.

(** ** The disclosure panel *)

(** C1, evaluated on the code. An assistant message is mounted with a raw
    response, its button is clicked once, and the parent then renders the
    same instance with the empty string as raw response. The state cell
    is still [true], the button is gone, and the panel is in the tree,
    around the empty string: the condition of the panel tests the role
    and the state cell only, not the raw response that the condition of
    the button tests. *)
Theorem panel_rendered_with_empty_raw_model_response
        (c : string) (ts : option string) :
  exists i,
    run (mount {| role := assistant; content := c;
                  raw_model_response := Some "raw-debug-data";
                  timestamp := ts |})
        [Click;
         Rerender {| role := assistant; content := c;
                     raw_model_response := Some "";
                     timestamp := ts |}] = Some i /\
    raw_model_response (props_of i) = Some "" /\
    showRawResponse_of i = true /\
    control_rendered (view i) = false /\
    panel_rendered (view i) = true /\
    panel_slot (view i) = VElement "div" panel_className None [VString ""].
Proof.
  eexists. split.
  - unfold mount. cbn [run]. rewrite step_Click, control_rendered_MessageBubble.
    reflexivity.
  - unfold view. cbn [props_of showRawResponse_of].
    rewrite control_rendered_MessageBubble, panel_rendered_MessageBubble,
      panel_slot_MessageBubble.
    repeat split.
Qed.

(** ** The disclosure control *)

(** C2. The button is in the render tree if and only if the role is
    [assistant] and the raw response is a string that is not empty; so it
    is absent for every user message, and absent for an assistant message
    whose raw response is empty or missing. *)
Theorem control_rendered_iff props v :
  (control_rendered (result (MessageBubble props v)) = true <->
   role props = assistant /\
   exists s, raw_model_response props = Some s /\ s <> "") /\
  (role props = user ->
   control_rendered (result (MessageBubble props v)) = false) /\
  (raw_model_response props = Some "" \/ raw_model_response props = None ->
   control_rendered (result (MessageBubble props v)) = false).
Proof.
  rewrite control_rendered_MessageBubble.
  split; [|split].
  - rewrite andb_true_iff, negb_true_iff, is_user_false, truthy_of_opt.
    reflexivity.
  - now intros ->.
  - intros [-> | ->]; apply andb_false_r.
Qed.

(** C3. When the button is rendered, a click on it replaces the state
    cell by its negation, and a second click on the button of the next
    render puts the first value back. *)
Theorem click_toggles_showRawResponse props v :
  control_rendered
    (view {| props_of := props; showRawResponse_of := v |}) = true ->
  step {| props_of := props; showRawResponse_of := v |} Click =
    Some {| props_of := props; showRawResponse_of := negb v |} /\
  run {| props_of := props; showRawResponse_of := v |} [Click; Click] =
    Some {| props_of := props; showRawResponse_of := v |}.
Proof.
  unfold view. cbn [props_of showRawResponse_of run]. intros R.
  rewrite step_Click, R. split; [reflexivity|].
  rewrite step_Click. rewrite control_rendered_MessageBubble in *.
  rewrite R. now rewrite negb_involutive.
Qed.

(** C4. A new instance starts with the state cell at [false]: its first
    render has no panel, and its button, when it has one, reads "show
    details". *)
Theorem initial_render props :
  showRawResponse_of (mount props) = false /\
  panel_rendered (view (mount props)) = false /\
  panel_slot (view (mount props)) = VBool false /\
  control_text (view (mount props)) =
    if control_rendered (view (mount props))
    then Some show_details else None.
Proof.
  unfold view, mount. cbn [props_of showRawResponse_of].
  rewrite panel_rendered_MessageBubble, panel_slot_MessageBubble,
    control_text_MessageBubble.
  repeat split.
  - apply andb_false_r.
  - now destruct (is_user _).
Qed.

(** C5. The label of a rendered button is "hide details" when the state
    cell is [true] and "show details" when it is [false]. *)
Theorem control_label props v :
  control_rendered (result (MessageBubble props v)) = true ->
  control_text (result (MessageBubble props v)) =
    Some (if v then hide_details else show_details).
Proof.
  intros R. now rewrite control_text_MessageBubble, R.
Qed.

(** ** The time label *)

(** C6, amended. The span is in the render tree if and only if a
    timestamp is supplied and is not the empty string; it then holds the
    timestamp as [toLocaleTimeString] formats it, for the locale [ar-SA]
    with two-digit hour and minute. Without a timestamp there is no
    span. *)
Theorem time_label_iff_nonempty_timestamp props v :
  (time_label_rendered (result (MessageBubble props v)) = true <->
   exists ts, timestamp props = Some ts /\ ts <> "") /\
  time_label (result (MessageBubble props v)) =
    match timestamp props with
    | Some ts =>
        if ts =? "" then None
        else Some (VElement "span" "px-1 text-xs text-muted-foreground" None
                     [VString (toLocaleTimeString (Date_new (VString ts))
                                 "ar-SA" time_options)])
    | None => None
    end.
Proof.
  split.
  - rewrite time_label_rendered_MessageBubble. apply truthy_of_opt.
  - rewrite time_label_MessageBubble, time_slot_MessageBubble.
    destruct (timestamp props) as [ts|]; simpl; [|reflexivity].
    now destruct (ts =? "").
Qed.

(** C7, amended. A timestamp that is not the empty string goes to
    [new Date] and from there to [toLocaleTimeString], whatever the date
    it parses to, an invalid one included: these two calls are all the
    component does with it, and the span holds the string that comes
    back. The component function is total, so no props make it fail. *)
Theorem timestamp_formatted_unguarded props v ts :
  timestamp props = Some ts -> ts <> "" ->
  trace (MessageBubble props v) =
    [CallDate (VString ts);
     CallToLocaleTimeString (Date_new (VString ts)) "ar-SA" time_options] /\
  option_map text_of (time_label (result (MessageBubble props v))) =
    Some (Some (toLocaleTimeString (Date_new (VString ts))
                  "ar-SA" time_options)).
Proof.
  intros E N.
  rewrite trace_MessageBubble, time_label_MessageBubble,
    time_slot_MessageBubble, E.
  cbn [of_opt]. now rewrite (truthy_VString ts N).
Qed.

(** C10. The empty string as timestamp does what a missing timestamp
    does: the conditional child is a falsy value and not an element, no
    span is in the tree, and neither [new Date] nor [toLocaleTimeString]
    is called. *)
Theorem empty_timestamp_as_absent props v :
  timestamp props = Some "" \/ timestamp props = None ->
  is_element (time_slot (result (MessageBubble props v))) = false /\
  time_label (result (MessageBubble props v)) = None /\
  trace (MessageBubble props v) = [].
Proof.
  intros E.
  rewrite trace_MessageBubble, time_label_MessageBubble,
    time_slot_MessageBubble.
  now destruct E as [-> | ->].
Qed.

(** ** Text *)

(** C8. The bubble has one child, the string [content] as it was
    passed, and its class list starts with the classes that include
    [whitespace-pre-wrap]; the panel, when it is rendered, has one child,
    [raw_model_response] as it was passed, under a class string that
    includes [whitespace-pre-wrap]. *)
Theorem content_verbatim props v :
  bubble (result (MessageBubble props v)) =
    VElement "div"
      (cn ["rounded-2xl px-4 py-2.5 text-sm leading-relaxed whitespace-pre-wrap";
           if is_user (role props)
           then "bg-user-bubble text-user-bubble-foreground rounded-tl-sm"
           else "bg-assistant-bubble text-assistant-bubble-foreground rounded-tr-sm"])
      None [VString (content props)] /\
  panel_slot (result (MessageBubble props v)) =
    if panel_rendered (result (MessageBubble props v))
    then VElement "div"
           "mt-1 rounded-lg bg-gray-100 p-2 text-xs text-gray-800 whitespace-pre-wrap"
           None [of_opt (raw_model_response props)]
    else VBool false.
Proof.
  split; [all_cases props v|].
  rewrite panel_rendered_MessageBubble, panel_slot_MessageBubble.
  now destruct (is_user _), v.
Qed.

(** ** User messages *)

(** C9. Two renders of user messages with the same content and the same
    timestamp give the same tree and the same platform calls, whatever
    the two raw responses and the two values of the state cell. *)
Theorem user_render_noninterference props1 props2 v1 v2 :
  role props1 = user -> role props2 = user ->
  content props1 = content props2 ->
  timestamp props1 = timestamp props2 ->
  MessageBubble props1 v1 = MessageBubble props2 v2.
Proof.
  destruct props1 as [r1 c1 raw1 ts1], props2 as [r2 c2 raw2 ts2].
  cbn [role content timestamp]. intros -> -> -> ->.
  unfold MessageBubble. cbn [role is_user negb].
  rewrite !js_and_ret_l. cbn [truthy].
  rewrite !js_and_ret_l. cbn [truthy].
  rewrite !bind_ret_l. reflexivity.
Qed.

End Properties.

(** * The properties at concrete inputs *)

(** The scenario of the specification: the first render shows the bubble
    and a "show details" button and no panel; one click brings the panel
    with the raw response and the label "hide details"; a second click
    takes the panel away and puts the first label back. *)
Example scenario_hello :
  let i0 := @mount hello in
  text_of (bubble (@view sample_platform i0)) = Some "Hello" /\
  control_text (@view sample_platform i0) = Some show_details /\
  panel_rendered (@view sample_platform i0) = false /\
  exists i1 i2,
    @step sample_platform i0 Click = Some i1 /\
    control_text (@view sample_platform i1) = Some hide_details /\
    text_of (panel_slot (@view sample_platform i1)) = Some "raw-debug-data" /\
    @step sample_platform i1 Click = Some i2 /\
    control_text (@view sample_platform i2) = Some show_details /\
    panel_rendered (@view sample_platform i2) = false.
Proof.
  repeat split. do 2 eexists. repeat split.
Qed.

(** A line break in [content] is a character of the string child like any
    other. *)
Example content_line_break :
  children_of
    (bubble (result (@MessageBubble sample_platform
                       {| role := user; content := "line1
line2";
                          raw_model_response := None; timestamp := None |}
                       false))) =
  [VString (String.append "line1" (String (Ascii.ascii_of_nat 10) "line2"))].
Proof. reflexivity. Qed.

(** A valid and an invalid timestamp on the sample platform. *)
Example time_label_valid :
  option_map text_of
    (time_label (result (@MessageBubble sample_platform
                           (with_timestamp (Some "2024-01-01T13:05:00Z"))
                           false))) =
  Some (Some "01:05 PM").
Proof. reflexivity. Qed.

Example time_label_invalid :
  option_map text_of
    (time_label (result (@MessageBubble sample_platform
                           (with_timestamp (Some "yesterday")) false))) =
  Some (Some "Invalid Date").
Proof. reflexivity. Qed.

Lemma click_toggles_showRawResponse_witness :
  control_rendered
    (@view sample_platform
       {| props_of := hello; showRawResponse_of := false |}) = true /\
  (@step sample_platform
     {| props_of := hello; showRawResponse_of := false |} Click =
     Some {| props_of := hello; showRawResponse_of := negb false |} /\
   @run sample_platform
     {| props_of := hello; showRawResponse_of := false |} [Click; Click] =
     Some {| props_of := hello; showRawResponse_of := false |}).
Proof.
  split; [reflexivity|].
  apply (@click_toggles_showRawResponse sample_platform hello false).
  reflexivity.
Defined.

Lemma control_label_witness :
  control_rendered (result (@MessageBubble sample_platform hello true)) = true /\
  control_text (result (@MessageBubble sample_platform hello true)) =
    Some (if true then hide_details else show_details).
Proof.
  split; [reflexivity|].
  apply (@control_label sample_platform hello true). reflexivity.
Defined.

(** The empty string is a supplied timestamp, and no span is rendered for
    it: "rendered if and only if a timestamp is supplied" fails. *)
Lemma time_label_iff_supplied_counterexample :
  ~ (forall (P : Platform) (props : MessageBubbleProps) (v : bool),
       time_label_rendered (result (MessageBubble props v)) = true <->
       timestamp props <> None).
Proof.
  intros H.
  assert (E : time_label_rendered
                (result (@MessageBubble sample_platform
                           (with_timestamp (Some "")) false)) = true)
    by (apply H; discriminate).
  discriminate E.
Qed.

(** The empty string is a supplied timestamp that no date parses from, and
    it reaches neither [new Date] nor [toLocaleTimeString]. *)
Lemma timestamp_always_formatted_counterexample :
  ~ (forall (P : Platform) (props : MessageBubbleProps) (v : bool)
            (ts : string),
       timestamp props = Some ts ->
       trace (MessageBubble props v) =
         [CallDate (VString ts);
          CallToLocaleTimeString (Date_new (VString ts)) "ar-SA"
            time_options]).
Proof.
  intros H.
  specialize (H sample_platform (with_timestamp (Some "")) false ""
                eq_refl).
  discriminate H.
Qed.

Lemma timestamp_formatted_unguarded_witness :
  timestamp (with_timestamp (Some "yesterday")) = Some "yesterday" /\
  "yesterday" <> "" /\
  trace (@MessageBubble sample_platform
           (with_timestamp (Some "yesterday")) false) =
    [CallDate (VString "yesterday");
     CallToLocaleTimeString
       (@Date_new sample_platform (VString "yesterday")) "ar-SA"
       time_options] /\
  option_map text_of
    (time_label (result (@MessageBubble sample_platform
                           (with_timestamp (Some "yesterday")) false))) =
    Some (Some (@toLocaleTimeString sample_platform
                  (@Date_new sample_platform (VString "yesterday"))
                  "ar-SA" time_options)).
Proof.
  split; [reflexivity|]. split; [discriminate|].
  apply (@timestamp_formatted_unguarded sample_platform
           (with_timestamp (Some "yesterday")) false "yesterday");
    [reflexivity | discriminate].
Defined.

Lemma empty_timestamp_as_absent_witness :
  (timestamp (with_timestamp (Some "")) = Some "" \/
   timestamp (with_timestamp (Some "")) = None) /\
  is_element
    (time_slot (result (@MessageBubble sample_platform
                          (with_timestamp (Some "")) true))) = false /\
  time_label (result (@MessageBubble sample_platform
                        (with_timestamp (Some "")) true)) = None /\
  trace (@MessageBubble sample_platform (with_timestamp (Some "")) true) = [].
Proof.
  split; [left; reflexivity|].
  apply (@empty_timestamp_as_absent sample_platform
           (with_timestamp (Some "")) true).
  left; reflexivity.
Defined.

Lemma user_render_noninterference_witness :
  role (user_message (Some "secret")) = user /\
  role (user_message None) = user /\
  content (user_message (Some "secret")) = content (user_message None) /\
  timestamp (user_message (Some "secret")) = timestamp (user_message None) /\
  @MessageBubble sample_platform (user_message (Some "secret")) true =
  @MessageBubble sample_platform (user_message None) false.
Proof.
  repeat (split; [reflexivity|]).
  apply (@user_render_noninterference sample_platform
           (user_message (Some "secret")) (user_message None) true false);
    reflexivity.
Defined.

(** * Further properties of the component *)

Section Layout.

Context {P : Platform}.

Ltac by_cases props v :=
  destruct props as [[|] ? [[|? ?]|] [[|? ?]|]]; destruct v; reflexivity.

Lemma styling_MessageBubble props v :
  styling (result (MessageBubble props v)) =
  styling (result (MessageBubble
                     {| role := role props; content := "";
                        raw_model_response := None; timestamp := None |}
                     false)).
Proof. by_cases props v. Qed.

(** X1. The classes of the root, of the column and of the bubble, and the
    whole avatar, are decided by the role: two renders for the same role
    agree on them, whatever the content, the raw response, the timestamp
    and the state cell. *)
Theorem styling_depends_on_role_only props1 props2 v1 v2 :
  role props1 = role props2 ->
  styling (result (MessageBubble props1 v1)) =
  styling (result (MessageBubble props2 v2)).
Proof.
  intros E.
  rewrite (styling_MessageBubble props1 v1), (styling_MessageBubble props2 v2).
  now rewrite E.
Qed.

Lemma avatar_MessageBubble props v :
  avatar (result (MessageBubble props v)) =
  VElement "div"
    (cn ["flex h-8 w-8 shrink-0 items-center justify-center rounded-full";
         if is_user (role props) then "bg-user-bubble" else "bg-muted"])
    None
    [ if is_user (role props)
      then VElement "User" "h-4 w-4 text-user-bubble-foreground" None []
      else VElement "Bot" "h-4 w-4 text-muted-foreground" None [] ].
Proof. by_cases props v. Qed.

(** X2. The avatar holds one icon and nothing else: the [User] icon
    exactly for a user message, the [Bot] icon exactly for an assistant
    message. *)
Theorem avatar_icon_by_role props v :
  length (children_of (avatar (result (MessageBubble props v)))) = 1 /\
  (type_of (child 0 (avatar (result (MessageBubble props v)))) = Some "User"
   <-> role props = user) /\
  (type_of (child 0 (avatar (result (MessageBubble props v)))) = Some "Bot"
   <-> role props = assistant).
Proof.
  rewrite avatar_MessageBubble.
  destruct (role props); cbn; repeat split; intros E;
    solve [reflexivity | discriminate E].
Qed.

End Layout.

Section Tree.

Context {P : Platform}.

Ltac by_cases props v :=
  destruct props as [[|] ? [[|? ?]|] [[|? ?]|]]; destruct v; reflexivity.

(** X3. The button is the only element with an [onClick]: the tree has one
    interactive element when the button is rendered and none otherwise. *)
Theorem only_button_is_interactive props v :
  interactive (result (MessageBubble props v)) =
  match control (result (MessageBubble props v)) with
  | Some button => [button]
  | None => []
  end.
Proof. by_cases props v. Qed.

(** X4. The tree has the root, the avatar, its icon, the column and the
    bubble, and one more element for each of the button, the panel and the
    time label that is rendered: five elements at least, eight at most. *)
Theorem element_count props v :
  length (elements (result (MessageBubble props v))) =
  5 + Nat.b2n (control_rendered (result (MessageBubble props v)))
    + Nat.b2n (panel_rendered (result (MessageBubble props v)))
    + Nat.b2n (time_label_rendered (result (MessageBubble props v))).
Proof. by_cases props v. Qed.

(** X5. Under a rendered button, label and panel agree: the panel is in
    the tree exactly when the button reads "hide details", and out of it
    exactly when the button reads "show details". *)
Theorem label_agrees_with_panel props v :
  control_rendered (result (MessageBubble props v)) = true ->
  (panel_rendered (result (MessageBubble props v)) = true <->
   control_text (result (MessageBubble props v)) = Some hide_details) /\
  (panel_rendered (result (MessageBubble props v)) = false <->
   control_text (result (MessageBubble props v)) = Some show_details).
Proof.
  intros R. rewrite control_text_MessageBubble, R.
  rewrite control_rendered_MessageBubble in R.
  apply andb_true_iff in R as (Ru & _).
  rewrite panel_rendered_MessageBubble, Ru.
  destruct v; cbn; repeat split; intros E;
    solve [reflexivity | discriminate E].
Qed.

(** X6. The time label and the calls to the date functions are decided by
    the timestamp: two renders with the same timestamp make the same calls
    and have the same time label, whatever the role, the content, the raw
    response and the state cell. *)
Theorem time_depends_on_timestamp_only props1 props2 v1 v2 :
  timestamp props1 = timestamp props2 ->
  trace (MessageBubble props1 v1) = trace (MessageBubble props2 v2) /\
  time_label (result (MessageBubble props1 v1)) =
  time_label (result (MessageBubble props2 v2)).
Proof.
  intros E.
  rewrite !trace_MessageBubble, !time_label_MessageBubble,
    !time_slot_MessageBubble, E.
  split; reflexivity.
Qed.

End Tree.

Section Interaction.

Context {P : Platform}.

(** X7. While the button is rendered every click succeeds, and [n] clicks
    leave the state cell where it was when [n] is even and at its negation
    when [n] is odd. *)
Theorem clicks_parity props v n :
  control_rendered (result (MessageBubble props v)) = true ->
  run {| props_of := props; showRawResponse_of := v |} (repeat Click n) =
  Some {| props_of := props;
          showRawResponse_of := if Nat.even n then v else negb v |}.
Proof.
  rewrite control_rendered_MessageBubble. intros G.
  revert v. induction n as [|n IH]; intros v; [reflexivity|].
  cbn [repeat run].
  rewrite step_Click, control_rendered_MessageBubble, G, IH.
  rewrite Nat.even_succ, <- Nat.negb_even.
  destruct (Nat.even n); cbn [negb]; [reflexivity|].
  now rewrite negb_involutive.
Qed.

(** X8. The handler of a render sets the state cell to a value fixed at
    that render, the negation of the value rendered: run twice without a
    render in between, it does not toggle back. *)
Theorem handler_of_a_render_sets_negation i button h :
  control (view i) = Some button ->
  onClick_of button = Some h ->
  showRawResponse_of (run_handler h i) = negb (showRawResponse_of i) /\
  showRawResponse_of (run_handler h (run_handler h i)) =
    negb (showRawResponse_of i).
Proof.
  destruct i as [props v]. unfold view. cbn [props_of showRawResponse_of].
  rewrite control_MessageBubble, control_slot_MessageBubble.
  destruct (is_user _); [discriminate|].
  destruct (truthy _); [|discriminate].
  cbn. intros [= <-] [= <-]. split; reflexivity.
Qed.

Lemma last_cons {A : Type} (a : A) (l : list A) (d : A) :
  last (a :: l) d = last l a.
Proof.
  revert a d. induction l as [|b l IH]; intros a d; [reflexivity|].
  change (last (a :: b :: l) d) with (last (b :: l) d).
  now rewrite !IH.
Qed.

(** Renders with new props never touch the state cell: after any sequence
    of them the instance has the last props and the state cell it had
    before. *)
Lemma rerenders_keep_state (ps : list MessageBubbleProps) : forall i,
  run i (map Rerender ps) =
  Some {| props_of := last ps (props_of i);
          showRawResponse_of := showRawResponse_of i |}.
Proof.
  induction ps as [|p ps IH]; intros [props v]; [reflexivity|].
  cbn [map run step]. rewrite IH. cbn [props_of showRawResponse_of].
  now rewrite last_cons.
Qed.

(** X9. An open panel follows the props: when the state cell is [true],
    any sequence of renders with new props that ends on an assistant
    message leaves the panel in the tree, around the raw response of the
    last props. Nothing resets the state cell when the props change. *)
Theorem open_panel_follows_props i ps :
  showRawResponse_of i = true ->
  role (last ps (props_of i)) = assistant ->
  exists i',
    run i (map Rerender ps) = Some i' /\
    showRawResponse_of i' = true /\
    panel_slot (view i') =
      VElement "div" panel_className None
        [of_opt (raw_model_response (last ps (props_of i)))].
Proof.
  intros E R. eexists. split; [apply rerenders_keep_state|].
  unfold view. cbn [props_of showRawResponse_of].
  rewrite panel_slot_MessageBubble, E, R. split; reflexivity.
Qed.

Lemma state_true_needs_gate (es : list event) : forall i0 i,
  run i0 es = Some i ->
  showRawResponse_of i = true ->
  showRawResponse_of i0 = true \/
  existsb gate (props_of i0 :: rendered_props es) = true.
Proof.
  induction es as [|e es IH]; intros i0 i; cbn [run].
  - intros [= <-] E. now left.
  - destruct (step i0 e) as [j|] eqn:S; [|discriminate].
    intros R E. destruct e as [|props].
    + right. apply step_Click_inv in S as (_ & _ & Hu & Hr).
      cbn [existsb]. unfold gate at 1. now rewrite Hu, Hr.
    + injection S as <-.
      destruct (IH _ _ R E) as [E0 | G]; [now left | right].
      change (rendered_props (Rerender props :: es))
        with (props :: rendered_props es).
      cbn [existsb props_of] in *. rewrite G. apply orb_true_r.
Qed.

(** X10. The state cell leaves [false] only through a rendered button:
    if it is [true] after some clicks and renders of a mounted instance,
    then the props of the mount or of one of the renders were those of an
    assistant message with a raw response that is not empty. *)
Theorem open_state_needs_gate props es i :
  run (mount props) es = Some i ->
  showRawResponse_of i = true ->
  existsb gate (props :: rendered_props es) = true.
Proof.
  intros R E.
  destruct (state_true_needs_gate es _ _ R E) as [E0 | G];
    [discriminate E0 | exact G].
Qed.

End Interaction.

Lemma styling_depends_on_role_only_witness :
  role (user_message (Some "secret")) = role (user_message None) /\
  styling (result (@MessageBubble sample_platform
                     (user_message (Some "secret")) true)) =
  styling (result (@MessageBubble sample_platform
                     (user_message None) false)).
Proof.
  split; [reflexivity|].
  apply (@styling_depends_on_role_only sample_platform
           (user_message (Some "secret")) (user_message None) true false).
  reflexivity.
Defined.

Lemma label_agrees_with_panel_witness :
  control_rendered (result (@MessageBubble sample_platform hello true)) = true /\
  (panel_rendered (result (@MessageBubble sample_platform hello true)) = true <->
   control_text (result (@MessageBubble sample_platform hello true)) =
     Some hide_details) /\
  (panel_rendered (result (@MessageBubble sample_platform hello true)) = false <->
   control_text (result (@MessageBubble sample_platform hello true)) =
     Some show_details).
Proof.
  split; [reflexivity|].
  apply (@label_agrees_with_panel sample_platform hello true). reflexivity.
Defined.

Lemma time_depends_on_timestamp_only_witness :
  timestamp (user_message None) =
    timestamp (with_timestamp (Some "2024-01-01T13:05:00Z")) /\
  trace (@MessageBubble sample_platform (user_message None) false) =
    trace (@MessageBubble sample_platform
             (with_timestamp (Some "2024-01-01T13:05:00Z")) true) /\
  time_label (result (@MessageBubble sample_platform (user_message None) false)) =
    time_label (result (@MessageBubble sample_platform
                          (with_timestamp (Some "2024-01-01T13:05:00Z")) true)).
Proof.
  split; [reflexivity|].
  apply (@time_depends_on_timestamp_only sample_platform
           (user_message None)
           (with_timestamp (Some "2024-01-01T13:05:00Z")) false true).
  reflexivity.
Defined.

Lemma clicks_parity_witness :
  control_rendered (result (@MessageBubble sample_platform hello false)) = true /\
  @run sample_platform
    {| props_of := hello; showRawResponse_of := false |} (repeat Click 3) =
  Some {| props_of := hello;
          showRawResponse_of := if Nat.even 3 then false else negb false |}.
Proof.
  split; [reflexivity|].
  apply (@clicks_parity sample_platform hello false 3). reflexivity.
Defined.

Lemma handler_of_a_render_sets_negation_witness :
  @control
    (@view sample_platform
       {| props_of := hello; showRawResponse_of := false |}) =
    Some (VElement "button" "mt-1 text-xs text-blue-500 hover:underline"
            (Some (SetShowRawResponse true)) [VString show_details]) /\
  onClick_of
    (VElement "button" "mt-1 text-xs text-blue-500 hover:underline"
       (Some (SetShowRawResponse true)) [VString show_details]) =
    Some (SetShowRawResponse true) /\
  showRawResponse_of
    (run_handler (SetShowRawResponse true)
       {| props_of := hello; showRawResponse_of := false |}) = negb false /\
  showRawResponse_of
    (run_handler (SetShowRawResponse true)
       (run_handler (SetShowRawResponse true)
          {| props_of := hello; showRawResponse_of := false |})) = negb false.
Proof.
  split; [reflexivity|]. split; [reflexivity|].
  apply (@handler_of_a_render_sets_negation sample_platform
           {| props_of := hello; showRawResponse_of := false |}
           (VElement "button" "mt-1 text-xs text-blue-500 hover:underline"
              (Some (SetShowRawResponse true)) [VString show_details])
           (SetShowRawResponse true));
    reflexivity.
Defined.

Lemma open_state_needs_gate_witness :
  @run sample_platform (mount hello)
    [Click; Rerender (user_message None)] =
    Some {| props_of := user_message None; showRawResponse_of := true |} /\
  showRawResponse_of
    {| props_of := user_message None; showRawResponse_of := true |} = true /\
  existsb gate
    (hello :: rendered_props [Click; Rerender (user_message None)]) = true.
Proof.
  split; [reflexivity|]. split; [reflexivity|].
  apply (@open_state_needs_gate sample_platform hello
           [Click; Rerender (user_message None)]
           {| props_of := user_message None; showRawResponse_of := true |});
    reflexivity.
Defined.

Lemma panel_gated_under_fixed_props_witness :
  @run sample_platform (mount hello) (repeat Click 1) =
    Some {| props_of := hello; showRawResponse_of := true |} /\
  panel_rendered
    (@view sample_platform
       {| props_of := hello; showRawResponse_of := true |}) = true /\
  role hello = assistant /\
  exists s, raw_model_response hello = Some s /\ s <> "".
Proof.
  split; [reflexivity|]. split; [reflexivity|].
  apply (@panel_gated_under_fixed_props sample_platform hello 1
           {| props_of := hello; showRawResponse_of := true |});
    reflexivity.
Defined.

Lemma open_panel_follows_props_witness :
  showRawResponse_of {| props_of := hello; showRawResponse_of := true |} =
    true /\
  role (last [user_message None; with_timestamp (Some "yesterday")]
          (props_of {| props_of := hello; showRawResponse_of := true |})) =
    assistant /\
  exists i',
    @run sample_platform
      {| props_of := hello; showRawResponse_of := true |}
      (map Rerender [user_message None; with_timestamp (Some "yesterday")]) =
      Some i' /\
    showRawResponse_of i' = true /\
    panel_slot (@view sample_platform i') =
      VElement "div" panel_className None
        [of_opt (raw_model_response
                   (last [user_message None; with_timestamp (Some "yesterday")]
                      (props_of {| props_of := hello;
                                   showRawResponse_of := true |})))].
Proof.
  split; [reflexivity|]. split; [reflexivity|].
  apply (@open_panel_follows_props sample_platform
           {| props_of := hello; showRawResponse_of := true |}
           [user_message None; with_timestamp (Some "yesterday")]);
    reflexivity.
Defined.
